(** * The physical-feasibility validator of the canvas frontend

    A shallow embedding of [frontend/src/lib/validation.ts] and the
    properties of its single exported function [validatePhysics].

    The function receives the text of a generated model, runs two regular
    expression tests on it and builds a report object from the two answers.
    The development therefore has three layers:

    - JavaScript strings as sequences of UTF-16 code units, and the fragment
      of regular expressions the two literals use, with [RegExp.prototype.test]
      as an executable matcher proved equivalent to the usual inductive
      definition of matching;
    - JavaScript values (numbers as binary64 floats, booleans, object
      literals with ordered properties) and property lookup;
    - [validatePhysics] itself, then a heap-passing rendition of the same
      function in which the regular expression objects are allocated. *)

From Stdlib Require Import List Bool PeanoNat NArith Lia String Ascii.
From Stdlib Require Import Floats.PrimFloat.
Import ListNotations.

Set Implicit Arguments.

(** ** JavaScript strings *)

(** A JavaScript string is a finite sequence of 16-bit code units. *)
Definition code_unit := N.
Definition jsstring := list code_unit.

(** The code units of a text written with ASCII characters only. *)
Fixpoint utf16 (s : string) : jsstring :=
  match s with
  | EmptyString => []
  | String a rest => N_of_ascii a :: utf16 rest
  end.

(** ** Regular expressions *)

Module Regex.

(** A character class is a list of inclusive code-unit ranges. *)
Definition ranges := list (N * N).

Fixpoint in_ranges (rs : ranges) (c : code_unit) : bool :=
  match rs with
  | [] => false
  | (lo, hi) :: rest => ((lo <=? c) && (c <=? hi))%N || in_ranges rest c
  end.

(** The patterns of the two literals only need characters, classes,
    concatenation and the star; [Void] and [Alt] are there for derivatives. *)
Inductive regex : Type :=
| Void
| Eps
| Chr (c : code_unit)
| Cls (rs : ranges)
| Cat (r1 r2 : regex)
| Alt (r1 r2 : regex)
| Star (r : regex).

(** [r+] *)
Definition Plus (r : regex) : regex := Cat r (Star r).

(** A literal run of characters. *)
Fixpoint lit (s : jsstring) : regex :=
  match s with
  | [] => Eps
  | c :: rest => Cat (Chr c) (lit rest)
  end.

(** A sequence of patterns. *)
Fixpoint cats (rs : list regex) : regex :=
  match rs with
  | [] => Eps
  | r :: rest => Cat r (cats rest)
  end.

(** [\d] is [0-9]. *)
Definition digit : ranges := [(48, 57)]%N.

(** [\s] is WhiteSpace and LineTerminator of ECMAScript: tab, line feed,
    vertical tab, form feed, carriage return, space, no-break space, and the
    Unicode space separators, line and paragraph separators and U+FEFF. *)
Definition space : ranges :=
  [(9, 13); (32, 32); (160, 160); (5760, 5760); (8192, 8202);
   (8232, 8233); (8239, 8239); (8287, 8287); (12288, 12288);
   (65279, 65279)]%N.

(** The inductive definition of "the whole of [s] matches [r]". *)
Inductive matches : regex -> jsstring -> Prop :=
| MEps : matches Eps []
| MChr c : matches (Chr c) [c]
| MCls rs c : in_ranges rs c = true -> matches (Cls rs) [c]
| MCat r1 r2 s1 s2 :
    matches r1 s1 -> matches r2 s2 -> matches (Cat r1 r2) (s1 ++ s2)
| MAltL r1 r2 s : matches r1 s -> matches (Alt r1 r2) s
| MAltR r1 r2 s : matches r2 s -> matches (Alt r1 r2) s
| MStarNil r : matches (Star r) []
| MStarApp r s1 s2 :
    matches r s1 -> matches (Star r) s2 -> matches (Star r) (s1 ++ s2).

(** Does [r] match the empty string? *)
Fixpoint nullable (r : regex) : bool :=
  match r with
  | Void => false
  | Eps => true
  | Chr _ => false
  | Cls _ => false
  | Cat r1 r2 => nullable r1 && nullable r2
  | Alt r1 r2 => nullable r1 || nullable r2
  | Star _ => true
  end.

(** What is left of [r] after reading the code unit [c]. *)
Fixpoint deriv (c : code_unit) (r : regex) : regex :=
  match r with
  | Void => Void
  | Eps => Void
  | Chr c' => if (c =? c')%N then Eps else Void
  | Cls rs => if in_ranges rs c then Eps else Void
  | Cat r1 r2 =>
      if nullable r1
      then Alt (Cat (deriv c r1) r2) (deriv c r2)
      else Cat (deriv c r1) r2
  | Alt r1 r2 => Alt (deriv c r1) (deriv c r2)
  | Star r1 => Cat (deriv c r1) (Star r1)
  end.

(** Does some prefix of [s] match [r]? *)
Fixpoint match_here (r : regex) (s : jsstring) : bool :=
  nullable r ||
  match s with
  | [] => false
  | c :: rest => match_here (deriv c r) rest
  end.

(** [RegExp.prototype.test] for a pattern without flags: the search starts at
    index 0 and tries every start index up to the length of the string. *)
Fixpoint test (r : regex) (s : jsstring) : bool :=
  match_here r s ||
  match s with
  | [] => false
  | _ :: rest => test r rest
  end.

(** A sound analysis: [must_contain c r] only if every match of [r] has the
    code unit [c] in it. *)
Fixpoint must_contain (c : code_unit) (r : regex) : bool :=
  match r with
  | Void => true
  | Eps => false
  | Chr c' => (c =? c')%N
  | Cls _ => false
  | Cat r1 r2 => must_contain c r1 || must_contain c r2
  | Alt r1 r2 => must_contain c r1 && must_contain c r2
  | Star _ => false
  end.

End Regex.

Import Regex.

(** ** JavaScript values *)

(** The values the report is made of. The properties of an object literal
    are kept in the order they are written. *)
#[local] Set Warnings "-register-all".
Inductive jsval : Type :=
| JNum (n : float)
| JBool (b : bool)
| JObj (props : list (string * jsval)).

(** [o[k]] among a list of properties. *)
Fixpoint lookup (k : string) (props : list (string * jsval)) : option jsval :=
  match props with
  | [] => None
  | (k', v) :: rest => if String.eqb k k' then Some v else lookup k rest
  end.

(** Property access [v.k]; [None] stands for [undefined]. *)
Definition field (k : string) (v : jsval) : option jsval :=
  match v with
  | JObj props => lookup k props
  | _ => None
  end.

(** A chain of property accesses [v.k1.k2...]. *)
Fixpoint path (ks : list string) (v : jsval) : option jsval :=
  match ks with
  | [] => Some v
  | k :: rest =>
      match field k v with
      | Some v' => path rest v'
      | None => None
      end
  end.

(** [Object.keys]. *)
Definition keys (v : jsval) : list string :=
  match v with
  | JObj props => map fst props
  | _ => []
  end.

(** The relational operators on numbers. With a NaN operand both are false,
    as [PrimFloat.leb] is. *)
Definition js_ge (a b : float) : bool := PrimFloat.leb b a.
Definition js_le (a b : float) : bool := PrimFloat.leb a b.

(** ** validation.ts *)

(** [/cube\(\[\d+,\s*\d+,\s*[01]\.\d+\]/] *)
Definition thinWallsPattern : regex :=
  cats [ lit (utf16 "cube([");
         Plus (Cls digit); Chr 44%N; Star (Cls space);
         Plus (Cls digit); Chr 44%N; Star (Cls space);
         Cls [(48, 49)%N]; Chr 46%N; Plus (Cls digit);
         Chr 93%N ].

(** [/rotate\(\[90,\s*0,\s*0\]/] *)
Definition complexOverhangsPattern : regex :=
  cats [ lit (utf16 "rotate([90,"); Star (Cls space);
         lit (utf16 "0,"); Star (Cls space);
         lit (utf16 "0]") ].

Definition validatePhysics (openSCADCode : jsstring) : jsval :=
  (* Basic checks based on code patterns *)
  let hasThinWalls := test thinWallsPattern openSCADCode in
  let hasComplexOverhangs := test complexOverhangsPattern openSCADCode in
  let wallThickness := if hasThinWalls then 1.0%float else 2.0%float in
  let maxOverhang := if hasComplexOverhangs then 90%float else 30%float in
  JObj
    [ ("centerOfGravity"%string,
        JObj [ ("x"%string, JNum 0%float);
               ("y"%string, JNum 0%float);
               ("stable"%string, JBool true) ]);
      ("wallThickness"%string,
        JObj [ ("min"%string, JNum wallThickness);
               ("ok"%string, JBool (js_ge wallThickness 1.5%float)) ]);
      ("overhangAngle"%string,
        JObj [ ("max"%string, JNum maxOverhang);
               ("ok"%string, JBool (js_le maxOverhang 45%float)) ]) ].

(** ** The same function over a heap of RegExp objects

    Evaluating a regular expression literal allocates a RegExp object, which
    carries a mutable [lastIndex]. Here the function is written with the heap
    passed along, so that what a call reads from and leaves in the heap is
    explicit. *)

Module Heap.

(** A RegExp object made by a literal without flags. *)
Record RegExp : Type := mkRegExp { source : regex; lastIndex : nat }.

(** The heap: the objects allocated so far; an object's address is its
    position. *)
Definition heap := list RegExp.

Definition M (A : Type) : Type := heap -> A * heap.

Definition ret {A : Type} (a : A) : M A := fun h => (a, h).

Definition bind {A B : Type} (m : M A) (k : A -> M B) : M B :=
  fun h => let (a, h') := m h in k a h'.

Notation "x <- m ;; k" := (bind m (fun x => k))
  (at level 61, m at next level, right associativity).

(** Evaluation of a literal [/r/]: a fresh object with [lastIndex] 0. *)
Definition regexp_literal (r : regex) : M nat :=
  fun h => (List.length h, h ++ [mkRegExp r 0]).

(** [re.test(s)] on an object without the [g] and [y] flags: the search
    starts at index 0 whatever [lastIndex] holds, and [lastIndex] is not
    written. *)
Definition regexp_test (re : nat) (s : jsstring) : M bool :=
  fun h =>
    match nth_error h re with
    | Some o => (test (source o) s, h)
    | None => (false, h)
    end.

Definition validatePhysics (openSCADCode : jsstring) : M jsval :=
  re1 <- regexp_literal thinWallsPattern ;;
  hasThinWalls <- regexp_test re1 openSCADCode ;;
  re2 <- regexp_literal complexOverhangsPattern ;;
  hasComplexOverhangs <- regexp_test re2 openSCADCode ;;
  let wallThickness := if hasThinWalls then 1.0%float else 2.0%float in
  let maxOverhang := if hasComplexOverhangs then 90%float else 30%float in
  ret (JObj
    [ ("centerOfGravity"%string,
        JObj [ ("x"%string, JNum 0%float);
               ("y"%string, JNum 0%float);
               ("stable"%string, JBool true) ]);
      ("wallThickness"%string,
        JObj [ ("min"%string, JNum wallThickness);
               ("ok"%string, JBool (js_ge wallThickness 1.5%float)) ]);
      ("overhangAngle"%string,
        JObj [ ("max"%string, JNum maxOverhang);
               ("ok"%string, JBool (js_le maxOverhang 45%float)) ]) ]).

(** Two calls one after the other, on the heap the first one leaves. *)
Definition twice (openSCADCode : jsstring) : M (jsval * jsval) :=
  r1 <- validatePhysics openSCADCode ;;
  r2 <- validatePhysics openSCADCode ;;
  ret (r1, r2).

End Heap.

(** ** Texts used in the statements *)

(** The report every check of which passes. *)
Definition allPass : jsval :=
  JObj
    [ ("centerOfGravity"%string,
        JObj [ ("x"%string, JNum 0%float);
               ("y"%string, JNum 0%float);
               ("stable"%string, JBool true) ]);
      ("wallThickness"%string,
        JObj [ ("min"%string, JNum 2%float); ("ok"%string, JBool true) ]);
      ("overhangAngle"%string,
        JObj [ ("max"%string, JNum 30%float); ("ok"%string, JBool true) ]) ].

(** The text [cube([e, e, e]);] of a cube of edge [e] standing on the plane
    z = 0, [e] being the digits of the edge. *)
Definition cubeText (e : jsstring) : jsstring :=
  utf16 "cube([" ++ e ++ utf16 ", " ++ e ++ utf16 ", " ++ e ++ utf16 "]);".

(** [e] is a non-empty run of decimal digits. *)
Definition isDecimal (e : jsstring) : bool :=
  negb (Nat.eqb (List.length e) 0) && forallb (in_ranges digit) e.

(** The text with its white space taken out. *)
Definition withoutSpace (s : jsstring) : jsstring :=
  filter (fun c => negb (in_ranges space c)) s.

(** An analysis the other way round from [must_contain]: if [c] occurs in a
    match of [r] then [may_contain c r]. *)
Fixpoint may_contain (c : code_unit) (r : regex) : bool :=
  match r with
  | Void => false
  | Eps => false
  | Chr c' => (c =? c')%N
  | Cls rs => in_ranges rs c
  | Cat r1 r2 => may_contain c r1 || may_contain c r2
  | Alt r1 r2 => may_contain c r1 || may_contain c r2
  | Star r1 => may_contain c r1
  end.

(** A code unit that no match of either pattern can have in it: anything but
    the digits, white space, [( [ ] , .] and the letters of [cube] and
    [rotate]. *)
Definition isSeparator (c : code_unit) : bool :=
  negb (may_contain c thinWallsPattern) &&
  negb (may_contain c complexOverhangsPattern).

(** The four reports, by the answers of the two pattern tests. *)
Definition reportOf (thin overhang : bool) : jsval :=
  JObj
    [ ("centerOfGravity"%string,
        JObj [ ("x"%string, JNum 0%float);
               ("y"%string, JNum 0%float);
               ("stable"%string, JBool true) ]);
      ("wallThickness"%string,
        JObj [ ("min"%string, JNum (if thin then 1 else 2)%float);
               ("ok"%string, JBool (negb thin)) ]);
      ("overhangAngle"%string,
        JObj [ ("max"%string, JNum (if overhang then 90 else 30)%float);
               ("ok"%string, JBool (negb overhang)) ]) ].

Open Scope string_scope.
Open Scope list_scope.

(** * Regular expression matching *)

Section RegexFacts.

Lemma nullable_matches (r : regex) : nullable r = true <-> matches r [].
Proof.
  split.
  - induction r; simpl; intro H; try discriminate.
    + constructor.
    + apply andb_true_iff in H as [H1 H2].
      change (@nil code_unit) with (@nil code_unit ++ []).
      constructor; auto.
    + apply orb_true_iff in H as [H | H]; [apply MAltL | apply MAltR]; auto.
    + constructor.
  - intro H. remember (@nil code_unit) as s eqn:Es.
    induction H; simpl; auto; try discriminate.
    + apply app_eq_nil in Es as [E1 E2].
      rewrite IHmatches1, IHmatches2; auto.
    + rewrite IHmatches; auto.
    + rewrite IHmatches; auto using orb_true_r.
Qed.

Lemma deriv_sound (c : code_unit) (r : regex) :
  forall s, matches (deriv c r) s -> matches r (c :: s).
Proof.
  induction r; simpl; intros s H.
  - inversion H.
  - inversion H.
  - destruct (N.eqb_spec c c0) as [-> | _]; inversion H; subst. constructor.
  - destruct (in_ranges rs c) eqn:E; inversion H; subst. constructor; exact E.
  - destruct (nullable r1) eqn:E.
    + inversion H; subst.
      * inversion H3; subst.
        change (c :: s1 ++ s2) with ((c :: s1) ++ s2). constructor; auto.
      * change (c :: s) with ([] ++ c :: s).
        constructor; [apply nullable_matches; exact E | auto].
    + inversion H; subst.
      change (c :: s1 ++ s2) with ((c :: s1) ++ s2). constructor; auto.
  - inversion H; subst; [apply MAltL | apply MAltR]; auto.
  - inversion H; subst.
    change (c :: s1 ++ s2) with ((c :: s1) ++ s2). constructor; auto.
Qed.

Lemma deriv_complete (c : code_unit) (r : regex) (s0 : jsstring) :
  matches r s0 -> forall t, s0 = c :: t -> matches (deriv c r) t.
Proof.
  induction 1 as [| a | rs a Ha | r1 r2 s1 s2 H1 IH1 H2 IH2
                  | r1 r2 s H IH | r1 r2 s H IH | r | r s1 s2 H1 IH1 H2 IH2];
    intros t E; simpl; try discriminate.
  - injection E as -> <-. rewrite N.eqb_refl. constructor.
  - injection E as -> <-. rewrite Ha. constructor.
  - destruct s1 as [| a s1'].
    + simpl in E. subst s2.
      assert (N1 : nullable r1 = true) by (apply nullable_matches; assumption).
      rewrite N1. apply MAltR. apply IH2. reflexivity.
    + simpl in E. injection E as -> <-.
      assert (D : matches (Cat (deriv c r1) r2) (s1' ++ s2))
        by (constructor; auto).
      destruct (nullable r1); [apply MAltL |]; exact D.
  - apply MAltL. auto.
  - apply MAltR. auto.
  - destruct s1 as [| a s1'].
    + simpl in E. apply IH2 in E. simpl in E. exact E.
    + simpl in E. injection E as -> <-. constructor; auto.
Qed.

Lemma deriv_matches (c : code_unit) (r : regex) (s : jsstring) :
  matches (deriv c r) s <-> matches r (c :: s).
Proof.
  split; [apply deriv_sound | intro H; eapply deriv_complete; eauto].
Qed.

(** [match_here] finds exactly the strings a prefix of which matches. *)
Lemma match_here_spec (s : jsstring) :
  forall r, match_here r s = true <->
            exists m rest, s = m ++ rest /\ matches r m.
Proof.
  induction s as [| c s IH]; intro r; simpl.
  - rewrite orb_false_r, nullable_matches. split.
    + intro H. exists [], []. auto.
    + intros (m & rest & E & H). symmetry in E.
      apply app_eq_nil in E as [-> _]. exact H.
  - rewrite orb_true_iff, nullable_matches, IH. split.
    + intros [H | (m & rest & -> & H)].
      * exists [], (c :: s). auto.
      * exists (c :: m), rest. split; [reflexivity | apply deriv_matches, H].
    + intros ([| a m] & rest & E & H).
      * left. exact H.
      * right. simpl in E. injection E as <- ->.
        exists m, rest. split; [reflexivity | apply deriv_matches, H].
Qed.

(** [test] finds exactly the strings a substring of which matches. *)
Lemma test_spec (r : regex) (s : jsstring) :
  test r s = true <->
  exists pre m post, s = pre ++ m ++ post /\ matches r m.
Proof.
  induction s as [| c s IH]; cbn [test].
  - rewrite orb_false_r, match_here_spec. split.
    + intros (m & rest & E & H). exists [], m, rest. auto.
    + intros (pre & m & post & E & H). symmetry in E.
      apply app_eq_nil in E as [-> E]. exists m, post. auto.
  - rewrite orb_true_iff, match_here_spec, IH. split.
    + intros [(m & rest & E & H) | (pre & m & post & -> & H)].
      * exists [], m, rest. auto.
      * exists (c :: pre), m, post. auto.
    + intros ([| a pre] & m & post & E & H).
      * left. exists m, post. auto.
      * right. simpl in E. injection E as <- ->. exists pre, m, post. auto.
Qed.

Lemma must_contain_sound (c : code_unit) (r : regex) (m : jsstring) :
  matches r m -> must_contain c r = true -> In c m.
Proof.
  induction 1 as [| a | rs a Ha | r1 r2 s1 s2 H1 IH1 H2 IH2
                  | r1 r2 s H IH | r1 r2 s H IH | r | r s1 s2 H1 IH1 H2 IH2];
    simpl; intro Hc; try discriminate.
  - apply N.eqb_eq in Hc. left. auto.
  - apply in_or_app. apply orb_true_iff in Hc as [Hc | Hc]; auto.
  - apply andb_true_iff in Hc as [Hc1 Hc2]. auto.
  - apply andb_true_iff in Hc as [Hc1 Hc2]. auto.
Qed.

(** A text without a code unit every match must have is not matched. *)
Lemma test_without (c : code_unit) (r : regex) (s : jsstring) :
  must_contain c r = true -> ~ In c s -> test r s = false.
Proof.
  intros Hc Hs. destruct (test r s) eqn:E; [| reflexivity].
  apply test_spec in E as (pre & m & post & -> & H).
  exfalso. apply Hs. apply in_or_app. right. apply in_or_app. left.
  eapply must_contain_sound; eauto.
Qed.

(** ** What the two patterns match *)

Lemma matches_Cat (r1 r2 : regex) (s : jsstring) :
  matches (Cat r1 r2) s <->
  exists s1 s2, s = s1 ++ s2 /\ matches r1 s1 /\ matches r2 s2.
Proof.
  split.
  - intro H. inversion H; subst. eauto.
  - intros (s1 & s2 & -> & H1 & H2). constructor; assumption.
Qed.

Lemma matches_Chr (c : code_unit) (s : jsstring) :
  matches (Chr c) s <-> s = [c].
Proof.
  split; [intro H; inversion H; reflexivity | intros ->; constructor].
Qed.

Lemma matches_Cls (rs : ranges) (s : jsstring) :
  matches (Cls rs) s <-> exists c, s = [c] /\ in_ranges rs c = true.
Proof.
  split.
  - intro H. inversion H; subst. eauto.
  - intros (c & -> & H). constructor. exact H.
Qed.

Lemma matches_lit (l s : jsstring) : matches (lit l) s <-> s = l.
Proof.
  revert s. induction l as [| c l IH]; intro s; simpl.
  - split; [intro H; inversion H; reflexivity | intros ->; constructor].
  - rewrite matches_Cat. split.
    + intros (s1 & s2 & -> & H1 & H2).
      apply matches_Chr in H1 as ->. apply IH in H2 as ->. reflexivity.
    + intros ->. exists [c], l. repeat split.
      * constructor.
      * apply IH. reflexivity.
Qed.

(** [[...]*] matches the runs of code units of the class. *)
Lemma matches_Star_Cls (rs : ranges) (s : jsstring) :
  matches (Star (Cls rs)) s <-> forallb (in_ranges rs) s = true.
Proof.
  split.
  - intro H. remember (Star (Cls rs)) as r eqn:Er.
    induction H as [| a | rs' a Ha | r1 r2 s1 s2 H1 IH1 H2 IH2
                    | r1 r2 s H IH | r1 r2 s H IH | r | r s1 s2 H1 IH1 H2 IH2];
      try discriminate; [reflexivity |].
    injection Er as ->. rewrite forallb_app.
    apply matches_Cls in H1 as (c & -> & Hc). simpl.
    rewrite Hc, IH2; reflexivity.
  - induction s as [| c s IH]; simpl; intro H.
    + constructor.
    + apply andb_true_iff in H as [Hc Hs].
      change (c :: s) with ([c] ++ s). constructor; [constructor |]; auto.
Qed.

(** [[...]+] matches the non-empty runs. *)
Lemma matches_Plus_Cls (rs : ranges) (s : jsstring) :
  matches (Plus (Cls rs)) s <-> s <> [] /\ forallb (in_ranges rs) s = true.
Proof.
  unfold Plus. rewrite matches_Cat. split.
  - intros (s1 & s2 & -> & H1 & H2).
    apply matches_Cls in H1 as (c & -> & Hc).
    apply matches_Star_Cls in H2. simpl. rewrite Hc, H2.
    split; [discriminate | reflexivity].
  - intros [Hne H]. destruct s as [| c s]; [contradiction |].
    simpl in H. apply andb_true_iff in H as [Hc Hs].
    exists [c], s. repeat split.
    + constructor. exact Hc.
    + apply matches_Star_Cls. exact Hs.
Qed.

(** The rotation pattern matches [rotate([90,] [0,] [0]] with any white
    space before each 0. *)
Lemma complexOverhangsPattern_matches (m : jsstring) :
  matches complexOverhangsPattern m <->
  exists w1 w2,
    forallb (in_ranges space) w1 = true /\
    forallb (in_ranges space) w2 = true /\
    m = utf16 "rotate([90," ++ w1 ++ utf16 "0," ++ w2 ++ utf16 "0]".
Proof.
  unfold complexOverhangsPattern. cbn [cats]. split.
  - intro H.
    apply matches_Cat in H as (a1 & t1 & -> & A1 & H).
    apply matches_Cat in H as (a2 & t2 & -> & A2 & H).
    apply matches_Cat in H as (a3 & t3 & -> & A3 & H).
    apply matches_Cat in H as (a4 & t4 & -> & A4 & H).
    apply matches_Cat in H as (a5 & t5 & -> & A5 & H).
    inversion H; subst.
    apply matches_lit in A1 as ->. apply matches_lit in A3 as ->.
    apply matches_lit in A5 as ->.
    apply matches_Star_Cls in A2. apply matches_Star_Cls in A4.
    exists a2, a4. rewrite app_nil_r. auto.
  - intros (w1 & w2 & H1 & H2 & ->).
    repeat (apply MCat);
      try (apply matches_lit; reflexivity);
      try (apply matches_Star_Cls; assumption).
    replace (utf16 "0]") with (utf16 "0]" ++ []) by apply app_nil_r.
    constructor; [apply matches_lit; reflexivity | constructor].
Qed.

(** The thin-wall pattern matches [cube([] followed by two runs of digits,
    each with a comma and any white space after it, then 0 or 1, a full stop,
    a run of digits and the closing bracket. *)
Lemma thinWallsPattern_matches (m : jsstring) :
  matches thinWallsPattern m <->
  exists d1 w1 d2 w2 b d3,
    (d1 <> [] /\ forallb (in_ranges digit) d1 = true) /\
    forallb (in_ranges space) w1 = true /\
    (d2 <> [] /\ forallb (in_ranges digit) d2 = true) /\
    forallb (in_ranges space) w2 = true /\
    (b = 48%N \/ b = 49%N) /\
    (d3 <> [] /\ forallb (in_ranges digit) d3 = true) /\
    m = utf16 "cube([" ++ d1 ++ utf16 "," ++ w1 ++ d2 ++ utf16 "," ++ w2 ++
        [b] ++ utf16 "." ++ d3 ++ utf16 "]".
Proof.
  unfold thinWallsPattern. cbn [cats]. split.
  - intro H.
    apply matches_Cat in H as (a0 & t0 & -> & A0 & H).
    apply matches_Cat in H as (a1 & t1 & -> & A1 & H).
    apply matches_Cat in H as (a2 & t2 & -> & A2 & H).
    apply matches_Cat in H as (a3 & t3 & -> & A3 & H).
    apply matches_Cat in H as (a4 & t4 & -> & A4 & H).
    apply matches_Cat in H as (a5 & t5 & -> & A5 & H).
    apply matches_Cat in H as (a6 & t6 & -> & A6 & H).
    apply matches_Cat in H as (a7 & t7 & -> & A7 & H).
    apply matches_Cat in H as (a8 & t8 & -> & A8 & H).
    apply matches_Cat in H as (a9 & t9 & -> & A9 & H).
    apply matches_Cat in H as (a10 & t10 & -> & A10 & H).
    inversion H; subst.
    apply matches_lit in A0 as ->.
    apply matches_Plus_Cls in A1. apply matches_Chr in A2 as ->.
    apply matches_Star_Cls in A3.
    apply matches_Plus_Cls in A4. apply matches_Chr in A5 as ->.
    apply matches_Star_Cls in A6.
    apply matches_Cls in A7 as (b & -> & Hb). apply matches_Chr in A8 as ->.
    apply matches_Plus_Cls in A9. apply matches_Chr in A10 as ->.
    exists a1, a3, a4, a6, b, a9. repeat split; try tauto.
    simpl in Hb. rewrite orb_false_r in Hb.
    apply andb_true_iff in Hb as [Hlo Hhi].
    apply N.leb_le in Hlo, Hhi. lia.
  - intros (d1 & w1 & d2 & w2 & b & d3 & D1 & W1 & D2 & W2 & B & D3 & ->).
    repeat (apply MCat);
      try (apply matches_lit; reflexivity);
      try (apply matches_Plus_Cls; assumption);
      try (apply matches_Star_Cls; assumption);
      try (apply (MChr 44%N)); try (apply (MChr 46%N)).
    + constructor. destruct B as [-> | ->]; reflexivity.
    + replace (utf16 "]") with ([93%N] ++ []) by reflexivity.
      constructor; constructor.
Qed.

(** [test] with the rotation pattern, read on the text. *)
Corollary test_complexOverhangsPattern (s : jsstring) :
  test complexOverhangsPattern s = true <->
  exists pre w1 w2 post,
    forallb (in_ranges space) w1 = true /\
    forallb (in_ranges space) w2 = true /\
    s = pre ++ (utf16 "rotate([90," ++ w1 ++ utf16 "0," ++ w2 ++ utf16 "0]")
            ++ post.
Proof.
  rewrite test_spec. split.
  - intros (pre & m & post & -> & H).
    apply complexOverhangsPattern_matches in H as (w1 & w2 & H1 & H2 & ->).
    exists pre, w1, w2, post. auto.
  - intros (pre & w1 & w2 & post & H1 & H2 & ->).
    eexists pre, _, post. split; [reflexivity |].
    apply complexOverhangsPattern_matches. exists w1, w2. auto.
Qed.

(** [test] with the thin-wall pattern, read on the text. *)
Corollary test_thinWallsPattern (s : jsstring) :
  test thinWallsPattern s = true <->
  exists pre d1 w1 d2 w2 b d3 post,
    (d1 <> [] /\ forallb (in_ranges digit) d1 = true) /\
    forallb (in_ranges space) w1 = true /\
    (d2 <> [] /\ forallb (in_ranges digit) d2 = true) /\
    forallb (in_ranges space) w2 = true /\
    (b = 48%N \/ b = 49%N) /\
    (d3 <> [] /\ forallb (in_ranges digit) d3 = true) /\
    s = pre ++ (utf16 "cube([" ++ d1 ++ utf16 "," ++ w1 ++ d2 ++ utf16 "," ++
                w2 ++ [b] ++ utf16 "." ++ d3 ++ utf16 "]") ++ post.
Proof.
  rewrite test_spec. split.
  - intros (pre & m & post & -> & H).
    apply thinWallsPattern_matches in H
      as (d1 & w1 & d2 & w2 & b & d3 & D1 & W1 & D2 & W2 & B & D3 & ->).
    exists pre, d1, w1, d2, w2, b, d3, post. auto 10.
  - intros (pre & d1 & w1 & d2 & w2 & b & d3 & post
            & D1 & W1 & D2 & W2 & B & D3 & ->).
    eexists pre, _, post. split; [reflexivity |].
    apply thinWallsPattern_matches. exists d1, w1, d2, w2, b, d3. auto 10.
Qed.

(** The matcher on some texts. In the third the blank is a no-break space
    (U+00A0), in the fourth the third edge starts with 2. *)
Example test_thin_slab :
  test thinWallsPattern (utf16 "translate([0,0,1]) cube([10, 10, 0.5]);") = true.
Proof. vm_compute. reflexivity. Qed.

Example test_thick_slab :
  test thinWallsPattern (utf16 "cube([10, 10, 5]);") = false.
Proof. vm_compute. reflexivity. Qed.

Example test_no_break_space :
  test thinWallsPattern
    (utf16 "cube([10," ++ [160%N] ++ utf16 "10,1.25]") = true.
Proof. vm_compute. reflexivity. Qed.

Example test_two_point_five :
  test thinWallsPattern (utf16 "cube([10, 10, 2.5]);") = false.
Proof. vm_compute. reflexivity. Qed.

Example test_rotate :
  test complexOverhangsPattern (utf16 "rotate([90, 0,  0]) cylinder(h=5, r=1);")
  = true.
Proof. vm_compute. reflexivity. Qed.

Example test_rotate_other_axis :
  test complexOverhangsPattern (utf16 "rotate([0, 90, 0]) cylinder(h=5, r=1);")
  = false.
Proof. vm_compute. reflexivity. Qed.

End RegexFacts.

(** * The report of [validatePhysics] *)

Section Report.

(** The report as a function of the two pattern tests. *)
Lemma validatePhysics_unfold (s : jsstring) :
  validatePhysics s =
  JObj
    [ ("centerOfGravity",
        JObj [("x", JNum 0%float); ("y", JNum 0%float); ("stable", JBool true)]);
      ("wallThickness",
        JObj [ ("min", JNum (if test thinWallsPattern s then 1 else 2)%float);
               ("ok", JBool (negb (test thinWallsPattern s))) ]);
      ("overhangAngle",
        JObj [ ("max", JNum (if test complexOverhangsPattern s then 90 else 30)%float);
               ("ok", JBool (negb (test complexOverhangsPattern s))) ]) ].
Proof.
  unfold validatePhysics.
  destruct (test thinWallsPattern s), (test complexOverhangsPattern s);
    reflexivity.
Qed.

(** On the heap, a call returns what the function over values returns and
    leaves the heap it found with the two objects of its literals added. *)
Lemma heap_validatePhysics (s : jsstring) (h : Heap.heap) :
  Heap.validatePhysics s h =
  (validatePhysics s,
   h ++ [Heap.mkRegExp thinWallsPattern 0;
         Heap.mkRegExp complexOverhangsPattern 0]).
Proof.
  unfold Heap.validatePhysics, Heap.bind, Heap.regexp_literal,
    Heap.regexp_test, Heap.ret.
  rewrite nth_error_app2 by lia. rewrite Nat.sub_diag. cbn [nth_error].
  rewrite nth_error_app2 by lia. rewrite Nat.sub_diag. cbn [nth_error].
  rewrite <- app_assoc. reflexivity.
Qed.

Lemma not_digit_not_in (c : code_unit) (e : jsstring) :
  in_ranges digit c = false -> forallb (in_ranges digit) e = true -> ~ In c e.
Proof.
  intros Hc He Hin. rewrite forallb_forall in He.
  apply He in Hin. congruence.
Qed.

(** A cube text with decimal edges has no full stop and no letter r in it. *)
Lemma cubeText_without (c : code_unit) (e : jsstring) :
  in_ranges digit c = false ->
  existsb (N.eqb c) (utf16 "cube([, ]);") = false ->
  isDecimal e = true -> ~ In c (cubeText e).
Proof.
  intros Hc Hl He. unfold isDecimal in He.
  apply andb_true_iff in He as [_ He].
  assert (Hn : ~ In c e) by (apply not_digit_not_in; assumption).
  assert (Hlit : forall l, incl l (utf16 "cube([, ]);") -> ~ In c l).
  { intros l Hl' Hin. apply Hl' in Hin.
    assert (X : existsb (N.eqb c) (utf16 "cube([, ]);") = true).
    { apply existsb_exists. exists c. split; [exact Hin | apply N.eqb_refl]. }
    congruence. }
  unfold cubeText. rewrite !in_app_iff.
  intros [H | [H | [H | [H | [H | [H | H]]]]]];
    try (apply Hn; exact H);
    (revert H; apply Hlit; intros x Hx; simpl in Hx; simpl; tauto).
Qed.

Lemma cubeText_no_pattern (e : jsstring) :
  isDecimal e = true ->
  test thinWallsPattern (cubeText e) = false /\
  test complexOverhangsPattern (cubeText e) = false.
Proof.
  intro He. split.
  - apply test_without with (c := 46%N); [reflexivity |].
    apply cubeText_without; auto.
  - apply test_without with (c := 114%N); [reflexivity |].
    apply cubeText_without; auto.
Qed.

Example thin_cube :
  validatePhysics (utf16 "cube([10, 10, 0.5]);") =
  JObj [ ("centerOfGravity",
           JObj [("x", JNum 0%float); ("y", JNum 0%float); ("stable", JBool true)]);
         ("wallThickness", JObj [("min", JNum 1%float); ("ok", JBool false)]);
         ("overhangAngle", JObj [("max", JNum 30%float); ("ok", JBool true)]) ].
Proof. vm_compute. reflexivity. Qed.

Example rotated_cylinder :
  path ["overhangAngle"; "max"]
       (validatePhysics (utf16 "rotate([90, 0, 0]) cylinder(h=5, r=1);")) =
    Some (JNum 90%float) /\
  path ["overhangAngle"; "ok"]
       (validatePhysics (utf16 "rotate([90, 0, 0]) cylinder(h=5, r=1);")) =
    Some (JBool false).
Proof. split; vm_compute; reflexivity. Qed.

End Report.

(** * The claims *)

(** C1, as the code has it: for every input text, the structurally invalid
    ones included (the empty text, a text with a NaN coordinate), the call
    returns a complete report with its three sections and all their fields;
    there is no Input Error outcome, and the report marks the shape stable. *)
Theorem validatePhysics_always_reports (s : jsstring) :
  exists (m : float) (wok : bool) (a : float) (ook : bool),
    validatePhysics s =
    JObj
      [ ("centerOfGravity",
          JObj [("x", JNum 0%float); ("y", JNum 0%float); ("stable", JBool true)]);
        ("wallThickness", JObj [("min", JNum m); ("ok", JBool wok)]);
        ("overhangAngle", JObj [("max", JNum a); ("ok", JBool ook)]) ].
Proof.
  rewrite validatePhysics_unfold. do 4 eexists. reflexivity.
Qed.

(** C1 fails as stated: the empty text and a cube with a NaN edge both get
    the report all of whose checks pass, with [stable] true. *)
Lemma empty_text_reported_stable :
  validatePhysics [] = allPass /\
  validatePhysics (utf16 "cube([NaN, 10, 10]);") = allPass /\
  path ["centerOfGravity"; "stable"] allPass = Some (JBool true).
Proof. repeat split; vm_compute; reflexivity. Qed.

(** C2, as the code has it: the report is decided by the two pattern tests on
    the text and by nothing else; two texts get the same report exactly when
    both tests answer the same on them. *)
Theorem validatePhysics_by_patterns (s1 s2 : jsstring) :
  validatePhysics s1 = validatePhysics s2 <->
  test thinWallsPattern s1 = test thinWallsPattern s2 /\
  test complexOverhangsPattern s1 = test complexOverhangsPattern s2.
Proof.
  rewrite !validatePhysics_unfold. split.
  - intro H.
    destruct (test thinWallsPattern s1), (test thinWallsPattern s2),
      (test complexOverhangsPattern s1), (test complexOverhangsPattern s2);
      simpl in H; try discriminate H; split; reflexivity.
  - intros [-> ->]. reflexivity.
Qed.

(** C2 fails as stated: two texts of the same thin slab, which differ by one
    blank before the closing bracket, get different reports; the first fails
    the wall-thickness check and the second passes it. *)
Lemma same_solid_different_reports :
  let a := utf16 "cube([10, 10, 0.5]);" in
  let b := utf16 "cube([10, 10, 0.5 ]);" in
  withoutSpace a = withoutSpace b /\
  validatePhysics a <> validatePhysics b /\
  path ["wallThickness"; "ok"] (validatePhysics a) = Some (JBool false) /\
  path ["wallThickness"; "ok"] (validatePhysics b) = Some (JBool true).
Proof.
  cbv zeta. repeat split; try (vm_compute; reflexivity).
  vm_compute. discriminate.
Qed.

(** C3, as the code has it: the wall-thickness check passes exactly when the
    reported minimum is at least 1.5, and 1.5 is fixed in the code: the
    function takes no threshold, so a caller cannot supply one. The reported
    minimum being 1 or 2, the check fails at 1 and passes at 2; a threshold
    [t] in the place of 1.5 gives the reported flag on every text exactly
    when 1 < t <= 2, written here as [t <= 1] false and [t <= 2] true. *)
Theorem wallThickness_fixed_threshold :
  (forall s : jsstring, exists (m : float) (b : bool),
      field "wallThickness" (validatePhysics s) =
        Some (JObj [("min", JNum m); ("ok", JBool b)]) /\
      b = PrimFloat.leb 1.5 m /\
      ((m = 1%float /\ b = false) \/ (m = 2%float /\ b = true))) /\
  (forall t : float,
      (forall s : jsstring, exists m : float,
          path ["wallThickness"; "min"] (validatePhysics s) = Some (JNum m) /\
          path ["wallThickness"; "ok"] (validatePhysics s) =
            Some (JBool (PrimFloat.leb t m)))
      <-> PrimFloat.leb t 1 = false /\ PrimFloat.leb t 2 = true).
Proof.
  split.
  - intro s. rewrite validatePhysics_unfold.
    destruct (test thinWallsPattern s); do 2 eexists;
      (split; [reflexivity | split; [reflexivity | auto]]).
  - intro t. split.
    + intro H. split.
      * destruct (H (utf16 "cube([10, 10, 0.5]);")) as (m & Hm & Hb).
        vm_compute in Hm. injection Hm as <-.
        assert (E : path ["wallThickness"; "ok"]
                      (validatePhysics (utf16 "cube([10, 10, 0.5]);")) =
                    Some (JBool false)) by (vm_compute; reflexivity).
        rewrite E in Hb. injection Hb as Hb. symmetry. exact Hb.
      * destruct (H []) as (m & Hm & Hb).
        vm_compute in Hm. injection Hm as <-.
        assert (E : path ["wallThickness"; "ok"] (validatePhysics []) =
                    Some (JBool true)) by (vm_compute; reflexivity).
        rewrite E in Hb. injection Hb as Hb. symmetry. exact Hb.
    + intros [H1 H2] s. rewrite validatePhysics_unfold.
      destruct (test thinWallsPattern s); eexists;
        (split; [reflexivity |]); simpl; [rewrite H1 | rewrite H2];
        reflexivity.
Qed.

(** C3 fails as stated: on a thin slab the reported minimum is 1 and the
    check fails, whatever the caller wants; with a caller's threshold of 1.0
    the minimum 1 is at least the threshold and the check would pass. *)
Lemma wall_threshold_not_supplied :
  path ["wallThickness"; "min"]
       (validatePhysics (utf16 "cube([10, 10, 0.5]);")) = Some (JNum 1%float) /\
  path ["wallThickness"; "ok"]
       (validatePhysics (utf16 "cube([10, 10, 0.5]);")) = Some (JBool false) /\
  js_ge 1%float 1.0%float = true.
Proof. repeat split; vm_compute; reflexivity. Qed.

(** C4, as the code has it: the overhang check passes exactly when the
    reported worst angle is at most 45, and 45 is fixed in the code: the
    function takes no threshold and computes no area fraction. The reported
    angle being 30 or 90, the check passes at 30 and fails at 90; a threshold
    [t] in the place of 45 gives the reported flag on every text exactly
    when 30 <= t < 90, written here as [30 <= t] true and [90 <= t] false. *)
Theorem overhangAngle_fixed_threshold :
  (forall s : jsstring, exists (a : float) (b : bool),
      field "overhangAngle" (validatePhysics s) =
        Some (JObj [("max", JNum a); ("ok", JBool b)]) /\
      b = PrimFloat.leb a 45 /\
      ((a = 30%float /\ b = true) \/ (a = 90%float /\ b = false))) /\
  (forall t : float,
      (forall s : jsstring, exists a : float,
          path ["overhangAngle"; "max"] (validatePhysics s) = Some (JNum a) /\
          path ["overhangAngle"; "ok"] (validatePhysics s) =
            Some (JBool (PrimFloat.leb a t)))
      <-> PrimFloat.leb 30 t = true /\ PrimFloat.leb 90 t = false).
Proof.
  split.
  - intro s. rewrite validatePhysics_unfold.
    destruct (test complexOverhangsPattern s); do 2 eexists;
      (split; [reflexivity | split; [reflexivity | auto]]).
  - intro t. split.
    + intro H. split.
      * destruct (H []) as (a & Ha & Hb).
        vm_compute in Ha. injection Ha as <-.
        assert (E : path ["overhangAngle"; "ok"] (validatePhysics []) =
                    Some (JBool true)) by (vm_compute; reflexivity).
        rewrite E in Hb. injection Hb as Hb. symmetry. exact Hb.
      * destruct (H (utf16 "rotate([90, 0, 0]) cube(5);")) as (a & Ha & Hb).
        vm_compute in Ha. injection Ha as <-.
        assert (E : path ["overhangAngle"; "ok"]
                      (validatePhysics (utf16 "rotate([90, 0, 0]) cube(5);")) =
                    Some (JBool false)) by (vm_compute; reflexivity).
        rewrite E in Hb. injection Hb as Hb. symmetry. exact Hb.
    + intros [H1 H2] s. rewrite validatePhysics_unfold.
      destruct (test complexOverhangsPattern s); eexists;
        (split; [reflexivity |]); simpl; [rewrite H2 | rewrite H1];
        reflexivity.
Qed.

(** C4 fails as stated: on a part laid flat by a rotation the reported worst
    angle is 90 and the check fails, whatever the caller wants; with a
    caller's threshold of 90 the angle is at most the threshold and the check
    would pass. *)
Lemma overhang_threshold_not_supplied :
  path ["overhangAngle"; "max"]
       (validatePhysics (utf16 "rotate([90, 0, 0]) cube(5);")) =
    Some (JNum 90%float) /\
  path ["overhangAngle"; "ok"]
       (validatePhysics (utf16 "rotate([90, 0, 0]) cube(5);")) =
    Some (JBool false) /\
  js_le 90%float 90%float = true.
Proof. repeat split; vm_compute; reflexivity. Qed.

(** C5, as the code has it: the report has exactly the three sections
    centerOfGravity, wallThickness and overhangAngle, each with its own flag;
    it has no overall [ok] and no diagnostics, and the flags are not
    combined. *)
Theorem report_sections (s : jsstring) :
  keys (validatePhysics s) =
    ["centerOfGravity"; "wallThickness"; "overhangAngle"] /\
  field "ok" (validatePhysics s) = None /\
  field "diagnostics" (validatePhysics s) = None /\
  path ["centerOfGravity"; "stable"] (validatePhysics s) = Some (JBool true) /\
  path ["wallThickness"; "ok"] (validatePhysics s) =
    Some (JBool (negb (test thinWallsPattern s))) /\
  path ["overhangAngle"; "ok"] (validatePhysics s) =
    Some (JBool (negb (test complexOverhangsPattern s))).
Proof.
  rewrite validatePhysics_unfold. repeat split.
Qed.

(** C5 fails as stated: the report of the empty text has no [ok] field. *)
Lemma report_without_overall_ok :
  field "ok" (validatePhysics []) = None.
Proof. vm_compute. reflexivity. Qed.

(** C6, as the code has it: for a cube of decimal edge [e] written
    [cube([e, e, e]);] the report is the one all of whose checks pass: the
    centre of gravity is given as x = 0, y = 0 and stable, whatever the edge
    and without a margin, and there is neither a volume nor a centroid. *)
Theorem cube_report (e : jsstring) :
  isDecimal e = true ->
  validatePhysics (cubeText e) = allPass /\
  field "centerOfGravity" (validatePhysics (cubeText e)) =
    Some (JObj [("x", JNum 0%float); ("y", JNum 0%float);
                ("stable", JBool true)]) /\
  field "volume" (validatePhysics (cubeText e)) = None /\
  field "centroid" (validatePhysics (cubeText e)) = None.
Proof.
  intro He. destruct (cubeText_no_pattern e He) as [H1 H2].
  rewrite validatePhysics_unfold, H1, H2. repeat split.
Qed.

Lemma cube_report_witness :
  isDecimal (utf16 "10") = true /\
  validatePhysics (utf16 "cube([10, 10, 10]);") = allPass.
Proof.
  split; [reflexivity | apply (cube_report (utf16 "10")); reflexivity].
Defined.

(** C6 fails as stated: the report of the cube of edge 10 has no volume and
    no centroid to compare with 1000 and (0, 0, 5). *)
Lemma cube_report_without_volume :
  field "volume" (validatePhysics (utf16 "cube([10, 10, 10]);")) = None /\
  field "centroid" (validatePhysics (utf16 "cube([10, 10, 10]);")) = None.
Proof. split; vm_compute; reflexivity. Qed.

(** C7: a call's report does not depend on the heap it runs on, a call leaves
    the objects it found untouched, and two calls in a row on the same text
    return the same report. *)
Theorem validatePhysics_deterministic (s : jsstring) (h1 h2 : Heap.heap) :
  fst (Heap.validatePhysics s h1) = fst (Heap.validatePhysics s h2) /\
  firstn (List.length h1) (snd (Heap.validatePhysics s h1)) = h1 /\
  fst (fst (Heap.twice s h1)) = snd (fst (Heap.twice s h1)).
Proof.
  repeat split.
  - rewrite !heap_validatePhysics. reflexivity.
  - rewrite heap_validatePhysics. cbn [snd].
    rewrite firstn_app, Nat.sub_diag, firstn_all. cbn [firstn].
    apply app_nil_r.
  - unfold Heap.twice, Heap.bind, Heap.ret.
    rewrite !heap_validatePhysics. reflexivity.
Qed.

(** C8: for every input text the centre of gravity is reported as x = 0,
    y = 0 and stable. *)
Theorem centerOfGravity_constant (s : jsstring) :
  field "centerOfGravity" (validatePhysics s) =
  Some (JObj [("x", JNum 0%float); ("y", JNum 0%float); ("stable", JBool true)]).
Proof. reflexivity. Qed.

(** C9: when the text matches [/cube\(\[\d+,\s*\d+,\s*[01]\.\d+\]/], that is
    when it has in it [cube([], digits, a comma, any white space, digits, a
    comma, any white space, 0 or 1, a full stop, digits and []], the reported
    minimum wall thickness is 1.0 and the check fails; otherwise the minimum
    is 2.0 and the check passes; the minimum is never anything else. *)
Theorem wallThickness_by_pattern (s : jsstring) :
  let matched :=
    exists pre d1 w1 d2 w2 b d3 post,
      (d1 <> [] /\ forallb (in_ranges digit) d1 = true) /\
      forallb (in_ranges space) w1 = true /\
      (d2 <> [] /\ forallb (in_ranges digit) d2 = true) /\
      forallb (in_ranges space) w2 = true /\
      (b = 48%N \/ b = 49%N) /\
      (d3 <> [] /\ forallb (in_ranges digit) d3 = true) /\
      s = pre ++ (utf16 "cube([" ++ d1 ++ utf16 "," ++ w1 ++ d2 ++ utf16 "," ++
                  w2 ++ [b] ++ utf16 "." ++ d3 ++ utf16 "]") ++ post in
  exists (m : float) (ok : bool),
    path ["wallThickness"; "min"] (validatePhysics s) = Some (JNum m) /\
    path ["wallThickness"; "ok"] (validatePhysics s) = Some (JBool ok) /\
    ((matched /\ m = 1.0%float /\ ok = false) \/
     (~ matched /\ m = 2.0%float /\ ok = true)).
Proof.
  intro matched. rewrite validatePhysics_unfold.
  destruct (test thinWallsPattern s) eqn:E; do 2 eexists;
    (split; [reflexivity | split; [reflexivity |]]).
  - left. split; [apply test_thinWallsPattern; exact E | auto].
  - right. split; [| auto].
    intro H. apply test_thinWallsPattern in H. congruence.
Qed.

(** C10: when the text matches [/rotate\(\[90,\s*0,\s*0\]/], that is when it
    has in it [rotate([90,], any white space, [0,], any white space and
    [0]]], the reported worst overhang angle is 90 and the check fails;
    otherwise the angle is 30 and the check passes; the angle is never
    anything else. *)
Theorem overhangAngle_by_pattern (s : jsstring) :
  let matched :=
    exists pre w1 w2 post,
      forallb (in_ranges space) w1 = true /\
      forallb (in_ranges space) w2 = true /\
      s = pre ++ (utf16 "rotate([90," ++ w1 ++ utf16 "0," ++ w2 ++ utf16 "0]")
              ++ post in
  exists (a : float) (ok : bool),
    path ["overhangAngle"; "max"] (validatePhysics s) = Some (JNum a) /\
    path ["overhangAngle"; "ok"] (validatePhysics s) = Some (JBool ok) /\
    ((matched /\ a = 90%float /\ ok = false) \/
     (~ matched /\ a = 30%float /\ ok = true)).
Proof.
  intro matched. rewrite validatePhysics_unfold.
  destruct (test complexOverhangsPattern s) eqn:E; do 2 eexists;
    (split; [reflexivity | split; [reflexivity |]]).
  - left. split; [apply test_complexOverhangsPattern; exact E | auto].
  - right. split; [| auto].
    intro H. apply test_complexOverhangsPattern in H. congruence.
Qed.

(** * Further properties of the two checks *)

Section Texts.

(** A match inside a text is a match inside every text around it. *)
Lemma test_inside (r : regex) (pre s post : jsstring) :
  test r s = true -> test r (pre ++ s ++ post) = true.
Proof.
  intro H. apply test_spec in H as (p & m & q & -> & H).
  apply test_spec. exists (pre ++ p), m, (q ++ post).
  split; [| exact H]. rewrite <- !app_assoc. reflexivity.
Qed.

Lemma may_contain_sound (c : code_unit) (r : regex) (m : jsstring) :
  matches r m -> In c m -> may_contain c r = true.
Proof.
  induction 1 as [| a | rs a Ha | r1 r2 s1 s2 H1 IH1 H2 IH2
                  | r1 r2 s H IH | r1 r2 s H IH | r | r s1 s2 H1 IH1 H2 IH2];
    simpl; intro Hin.
  - contradiction.
  - destruct Hin as [<- | []]. apply N.eqb_refl.
  - destruct Hin as [<- | []]. exact Ha.
  - apply in_app_or in Hin as [Hin | Hin]; apply orb_true_iff; auto.
  - apply orb_true_iff; auto.
  - apply orb_true_iff; auto.
  - contradiction.
  - apply in_app_or in Hin as [Hin | Hin]; auto.
Qed.

(** A piece without [c] of a text cut at [c] lies on one side of the cut. *)
Lemma piece_on_one_side (c : code_unit) (m post s2 : jsstring) :
  ~ In c m ->
  forall pre s1,
    s1 ++ c :: s2 = pre ++ m ++ post ->
    (exists q, s1 = pre ++ m ++ q) \/ (exists p, s2 = p ++ m ++ post).
Proof.
  intro Hm. induction pre as [| a pre IH]; intros s1 E.
  - left. simpl in *. revert s1 E.
    induction m as [| b m IHm]; intros s1 E.
    + exists s1. reflexivity.
    + destruct s1 as [| x s1]; simpl in E; injection E as -> E.
      * exfalso. apply Hm. left. reflexivity.
      * destruct (IHm (fun H => Hm (or_intror H)) s1 E) as [q ->].
        exists q. reflexivity.
  - destruct s1 as [| x s1]; simpl in E; injection E as -> E.
    + right. exists pre. exact E.
    + destruct (IH s1 E) as [[q ->] | [p ->]].
      * left. exists q. reflexivity.
      * right. exists p. reflexivity.
Qed.

(** Across a code unit no match can have in it, [test] is the disjunction
    of the tests of the two sides. *)
Lemma test_cut (r : regex) (c : code_unit) (s1 s2 : jsstring) :
  may_contain c r = false ->
  test r (s1 ++ c :: s2) = test r s1 || test r s2.
Proof.
  intro Hc. apply eq_iff_eq_true. rewrite orb_true_iff. split.
  - intro H. apply test_spec in H as (pre & m & post & E & H).
    assert (Hm : ~ In c m).
    { intro Hin. rewrite (may_contain_sound c H Hin) in Hc. discriminate. }
    destruct (@piece_on_one_side c m post s2 Hm pre s1 E) as [[q ->] | [p ->]].
    + left. apply test_spec. eauto.
    + right. apply test_spec. eauto.
  - intros [H | H].
    + apply (@test_inside r [] s1 (c :: s2)) in H. exact H.
    + apply (@test_inside r (s1 ++ [c]) s2 []) in H.
      rewrite app_nil_r, <- app_assoc in H. exact H.
Qed.

Lemma length_nonempty (d : jsstring) : d <> [] -> 1 <= List.length d.
Proof. destruct d; [contradiction | simpl; lia]. Qed.

(** The shortest text the thin-wall pattern finds has 14 code units. *)
Lemma thinWallsPattern_length (s : jsstring) :
  test thinWallsPattern s = true -> 14 <= List.length s.
Proof.
  intro H. apply test_thinWallsPattern in H
    as (pre & d1 & w1 & d2 & w2 & b & d3 & post
        & [D1 _] & _ & [D2 _] & _ & _ & [D3 _] & ->).
  apply length_nonempty in D1, D2, D3.
  rewrite !length_app. simpl. lia.
Qed.

(** The shortest text the rotation pattern finds has 15 code units. *)
Lemma complexOverhangsPattern_length (s : jsstring) :
  test complexOverhangsPattern s = true -> 15 <= List.length s.
Proof.
  intro H. apply test_complexOverhangsPattern in H
    as (pre & w1 & w2 & post & _ & _ & ->).
  rewrite !length_app. simpl. lia.
Qed.

Lemma validatePhysics_reportOf (s : jsstring) :
  validatePhysics s =
  reportOf (test thinWallsPattern s) (test complexOverhangsPattern s).
Proof. apply validatePhysics_unfold. Qed.

End Texts.

(** X1: the wall-thickness section is [{min: 1, ok: false}] exactly when the
    text has in it [cube([] followed by a run of digits, a comma, any white
    space, a run of digits, a comma, any white space, 0 or 1, a full stop, a
    run of digits and []]; the digits themselves do not matter. *)
Theorem wallThickness_fails_on_text (s : jsstring) :
  field "wallThickness" (validatePhysics s) =
    Some (JObj [("min", JNum 1%float); ("ok", JBool false)]) <->
  exists pre d1 w1 d2 w2 b d3 post,
    (d1 <> [] /\ forallb (in_ranges digit) d1 = true) /\
    forallb (in_ranges space) w1 = true /\
    (d2 <> [] /\ forallb (in_ranges digit) d2 = true) /\
    forallb (in_ranges space) w2 = true /\
    (b = 48%N \/ b = 49%N) /\
    (d3 <> [] /\ forallb (in_ranges digit) d3 = true) /\
    s = pre ++ (utf16 "cube([" ++ d1 ++ utf16 "," ++ w1 ++ d2 ++ utf16 "," ++
                w2 ++ [b] ++ utf16 "." ++ d3 ++ utf16 "]") ++ post.
Proof.
  rewrite <- test_thinWallsPattern, validatePhysics_reportOf.
  destruct (test thinWallsPattern s); simpl; split; intro H;
    try reflexivity; discriminate H.
Qed.

(** X2: the overhang section is [{max: 90, ok: false}] exactly when the text
    has in it [rotate([90,], any white space, [0,], any white space and
    [0]]. *)
Theorem overhangAngle_fails_on_text (s : jsstring) :
  field "overhangAngle" (validatePhysics s) =
    Some (JObj [("max", JNum 90%float); ("ok", JBool false)]) <->
  exists pre w1 w2 post,
    forallb (in_ranges space) w1 = true /\
    forallb (in_ranges space) w2 = true /\
    s = pre ++ (utf16 "rotate([90," ++ w1 ++ utf16 "0," ++ w2 ++ utf16 "0]")
            ++ post.
Proof.
  rewrite <- test_complexOverhangsPattern, validatePhysics_reportOf.
  destruct (test complexOverhangsPattern s); simpl; split; intro H;
    try reflexivity; discriminate H.
Qed.

(** X3: a check that fails on a text fails on every text that has it as a
    part: nothing put before or after a failing fragment makes the check
    pass. *)
Theorem failing_fragment_fails_text (k : string) (pre s post : jsstring) :
  path [k; "ok"] (validatePhysics s) = Some (JBool false) ->
  path [k; "ok"] (validatePhysics (pre ++ s ++ post)) = Some (JBool false).
Proof.
  rewrite !validatePhysics_reportOf. unfold reportOf.
  cbn [path field lookup].
  destruct (String.eqb k "centerOfGravity"); [intro H; discriminate H |].
  destruct (String.eqb k "wallThickness").
  - simpl. intro H. injection H as H. apply negb_false_iff in H.
    rewrite (@test_inside thinWallsPattern pre s post H). reflexivity.
  - destruct (String.eqb k "overhangAngle"); [| intro H; discriminate H].
    simpl. intro H. injection H as H. apply negb_false_iff in H.
    rewrite (@test_inside complexOverhangsPattern pre s post H). reflexivity.
Qed.

Lemma failing_fragment_fails_text_witness :
  path ["wallThickness"; "ok"]
       (validatePhysics (utf16 "cube([10, 10, 0.5])")) = Some (JBool false) /\
  path ["wallThickness"; "ok"]
       (validatePhysics (utf16 "// " ++ utf16 "cube([10, 10, 0.5])" ++ utf16 ";"))
    = Some (JBool false).
Proof.
  split; [vm_compute; reflexivity |].
  apply (failing_fragment_fails_text "wallThickness"). vm_compute. reflexivity.
Defined.

(** X4: a text that lacks one of the characters [c u b e ( [ , . ]] passes
    the wall-thickness check with a minimum of 2; so does in particular every
    text without a full stop. *)
Theorem wall_check_needs_chars (c : code_unit) (s : jsstring) :
  In c (utf16 "cube([,.]") -> ~ In c s ->
  field "wallThickness" (validatePhysics s) =
    Some (JObj [("min", JNum 2%float); ("ok", JBool true)]).
Proof.
  intros Hc Hs. rewrite validatePhysics_reportOf.
  rewrite (@test_without c thinWallsPattern s); [reflexivity | | exact Hs].
  simpl in Hc.
  repeat (destruct Hc as [<- | Hc]; [reflexivity |]). contradiction.
Qed.

Lemma wall_check_needs_chars_witness :
  field "wallThickness" (validatePhysics (utf16 "cube([10, 10, 1]);")) =
    Some (JObj [("min", JNum 2%float); ("ok", JBool true)]).
Proof.
  apply (@wall_check_needs_chars 46%N).
  - simpl. tauto.
  - simpl. intros H.
    repeat (destruct H as [H | H]; [discriminate H |]). exact H.
Defined.

(** X5: a text that lacks one of the characters [r o t a e ( [ 9 0 , ]]
    passes the overhang check with a worst angle of 30. *)
Theorem overhang_check_needs_chars (c : code_unit) (s : jsstring) :
  In c (utf16 "rotate([90,]") -> ~ In c s ->
  field "overhangAngle" (validatePhysics s) =
    Some (JObj [("max", JNum 30%float); ("ok", JBool true)]).
Proof.
  intros Hc Hs. rewrite validatePhysics_reportOf.
  rewrite (@test_without c complexOverhangsPattern s);
    [reflexivity | | exact Hs].
  simpl in Hc.
  repeat (destruct Hc as [<- | Hc]; [reflexivity |]). contradiction.
Qed.

Lemma overhang_check_needs_chars_witness :
  field "overhangAngle" (validatePhysics (utf16 "rotate([45, 0, 0]) cube(5);")) =
    Some (JObj [("max", JNum 30%float); ("ok", JBool true)]).
Proof.
  apply (@overhang_check_needs_chars 57%N).
  - simpl. tauto.
  - simpl. intros H.
    repeat (destruct H as [H | H]; [discriminate H |]). exact H.
Defined.

(** X6: a text of fewer than 14 code units, the empty text among them, gets
    the report all of whose checks pass. *)
Theorem short_text_all_pass (s : jsstring) :
  List.length s < 14 -> validatePhysics s = allPass.
Proof.
  intro H. rewrite validatePhysics_reportOf.
  assert (T : test thinWallsPattern s = false).
  { destruct (test thinWallsPattern s) eqn:E; [| reflexivity].
    apply thinWallsPattern_length in E. lia. }
  assert (O : test complexOverhangsPattern s = false).
  { destruct (test complexOverhangsPattern s) eqn:E; [| reflexivity].
    apply complexOverhangsPattern_length in E. lia. }
  rewrite T, O. reflexivity.
Qed.

Lemma short_text_all_pass_witness :
  validatePhysics (utf16 "cube(0.1);") = allPass.
Proof. apply short_text_all_pass. simpl. lia. Defined.

(** The bound of X6 is the best one: a text of 14 code units that fails. *)
Example fourteen_code_units :
  List.length (utf16 "cube([1,1,0.1]") = 14 /\
  validatePhysics (utf16 "cube([1,1,0.1]") = reportOf true false.
Proof. split; vm_compute; reflexivity. Qed.

(** The report is one of four objects, given by the answers of the two
    pattern tests, and each of the four is the report of some text: the two
    checks fail independently of each other. *)
Lemma four_reports :
  (forall s, exists thin overhang : bool,
      validatePhysics s = reportOf thin overhang) /\
  (forall thin overhang : bool, exists s,
      validatePhysics s = reportOf thin overhang).
Proof.
  split.
  - intro s. eexists _, _. apply validatePhysics_reportOf.
  - intros [|] [|].
    + exists (utf16 "rotate([90, 0, 0]) cube([10, 10, 0.5]);").
      vm_compute. reflexivity.
    + exists (utf16 "cube([10, 10, 0.5]);"). vm_compute. reflexivity.
    + exists (utf16 "rotate([90, 0, 0]) cube([10, 10, 5]);").
      vm_compute. reflexivity.
    + exists []. vm_compute. reflexivity.
Qed.

(** X7: two texts joined by a code unit neither pattern can match, a
    semicolon for one, are checked apart: each check fails on the joined text
    exactly when it fails on one of the two. *)
Theorem separator_splits_checks (c : code_unit) (s1 s2 : jsstring) :
  isSeparator c = true ->
  exists thin1 overhang1 thin2 overhang2 : bool,
    validatePhysics s1 = reportOf thin1 overhang1 /\
    validatePhysics s2 = reportOf thin2 overhang2 /\
    validatePhysics (s1 ++ c :: s2) =
      reportOf (thin1 || thin2) (overhang1 || overhang2).
Proof.
  unfold isSeparator. intro H.
  apply andb_true_iff in H as [H1 H2]. apply negb_true_iff in H1, H2.
  exists (test thinWallsPattern s1), (test complexOverhangsPattern s1),
    (test thinWallsPattern s2), (test complexOverhangsPattern s2).
  rewrite !validatePhysics_reportOf.
  rewrite (@test_cut thinWallsPattern c s1 s2 H1),
    (@test_cut complexOverhangsPattern c s1 s2 H2). auto.
Qed.

Lemma separator_splits_checks_witness :
  isSeparator 59%N = true /\
  validatePhysics (utf16 "cube([10, 10, 0.5])" ++ 59%N :: utf16 "sphere(5)") =
    reportOf true false.
Proof.
  split; [reflexivity |].
  destruct (@separator_splits_checks 59%N (utf16 "cube([10, 10, 0.5])")
              (utf16 "sphere(5)") eq_refl)
    as (t1 & o1 & t2 & o2 & E1 & E2 & E).
  transitivity (reportOf (t1 || t2) (o1 || o2)); [exact E |].
  vm_compute in E1. vm_compute in E2.
  destruct t1, o1, t2, o2; try discriminate E1; try discriminate E2.
  reflexivity.
Defined.

(** A line feed is white space and no separator: a failing fragment may run
    over several lines. *)
Example line_feed_inside :
  isSeparator 10%N = false /\
  test thinWallsPattern (utf16 "cube([10," ++ 10%N :: utf16 "10,0.5]") = true.
Proof. split; vm_compute; reflexivity. Qed.
